(** * db_init.py: the schema initializer of Spark_Application

    A shallow embedding of [src/db_init.py] and of the part of Python's
    [sqlite3] interface it calls, followed by the properties of the
    initializer.

    The program is effectful: it talks to a storage engine, may be
    interrupted by an exception at three places, and prints.  It is embedded
    as a state-and-exception monad over a [world] that holds the files on
    disk, the connections handed out by the engine, the standard output and
    the module's global names.  An exception does not undo the effects that
    came before it, so a run always yields an outcome together with the world
    it left behind. *)

From Stdlib Require Import Ascii String.
From stdpp Require Import gmap strings list fin_maps.

(** ** Schema objects of the storage engine *)

Inductive sql_type := TEXT | INTEGER | REAL | BLOB | NUMERIC.

Inductive column_constraint := PRIMARY_KEY | NOT_NULL | UNIQUE.

Record column := Column {
  col_name : string;
  col_type : sql_type;
  col_constraints : list column_constraint
}.

Inductive sql_value := SqlNull | SqlInteger (z : Z) | SqlText (s : string).

Record table := Table {
  tbl_name : string;
  tbl_columns : list column;
  tbl_rows : list (list sql_value)
}.

(** A database file holds its tables in creation order. *)
Abbreviation database := (list table).

(** The one kind of statement the program issues. *)
Inductive statement :=
  | CREATE_TABLE (if_not_exists : bool) (name : string) (cols : list column).

(** ** Python values and exceptions *)

Inductive pyval :=
  | PyNone
  | PyStr (s : string)
  | PyModule (name : string)
  | PyInitializeDb.          (* the function object made by [def initialize_db] *)

Inductive exn :=
  | OperationalError (msg : string)
  | DatabaseError (msg : string)
  | ProgrammingError (msg : string)
  | TypeError (msg : string)
  | NameError (msg : string)
  | AttributeError (msg : string).

#[global] Instance sql_type_eq_dec : EqDecision sql_type.
Proof. solve_decision. Defined.
#[global] Instance column_constraint_eq_dec : EqDecision column_constraint.
Proof. solve_decision. Defined.
#[global] Instance column_eq_dec : EqDecision column.
Proof. solve_decision. Defined.
#[global] Instance sql_value_eq_dec : EqDecision sql_value.
Proof. solve_decision. Defined.
#[global] Instance table_eq_dec : EqDecision table.
Proof. solve_decision. Defined.
#[global] Instance pyval_eq_dec : EqDecision pyval.
Proof. solve_decision. Defined.
#[global] Instance exn_eq_dec : EqDecision exn.
Proof. solve_decision. Defined.

(** ** The world *)

Record connection := Connection {
  conn_path : string;
  conn_open : bool
}.

(** A cursor remembers the connection it was made from. *)
Record cursor := Cursor { cur_conn : nat }.

(** Calls into the [sqlite3] interface, in the order they were made. *)
Inductive event :=
  | EvConnect (arg : pyval)
  | EvCursor (h : nat)
  | EvExecute (h : nat) (s : statement)
  | EvCommit (h : nat)
  | EvClose (h : nat).

Record world := World {
  fs : gmap string database;       (* files on durable storage, by path *)
  conns : list connection;         (* connection [h] is [conns !! h] *)
  faults : list (option exn);      (* what the next storage accesses meet *)
  trace : list event;
  stdout : list string;            (* lines printed so far *)
  globals : gmap string pyval      (* the module's global names *)
}.

Definition set_fs (f : gmap string database) (w : world) : world :=
  World f (conns w) (faults w) (trace w) (stdout w) (globals w).
Definition set_conns (c : list connection) (w : world) : world :=
  World (fs w) c (faults w) (trace w) (stdout w) (globals w).
Definition set_faults (fl : list (option exn)) (w : world) : world :=
  World (fs w) (conns w) fl (trace w) (stdout w) (globals w).
Definition set_trace (t : list event) (w : world) : world :=
  World (fs w) (conns w) (faults w) t (stdout w) (globals w).
Definition set_stdout (o : list string) (w : world) : world :=
  World (fs w) (conns w) (faults w) (trace w) o (globals w).
Definition set_globals (g : gmap string pyval) (w : world) : world :=
  World (fs w) (conns w) (faults w) (trace w) (stdout w) g.

(** ** The monad: state that survives an exception *)

Inductive outcome (A : Type) :=
  | Ok (a : A)
  | Raise (e : exn).
Arguments Ok {A} a.
Arguments Raise {A} e.

Definition M (A : Type) : Type := world -> outcome A * world.

Definition ret {A} (a : A) : M A := fun w => (Ok a, w).

Definition raise {A} (e : exn) : M A := fun w => (Raise e, w).

Definition bind {A B} (m : M A) (k : A -> M B) : M B := fun w =>
  match m w with
  | (Ok a, w1) => k a w1
  | (Raise e, w1) => (Raise e, w1)
  end.

Declare Scope py_scope.
Delimit Scope py_scope with py.
Notation "x <- c ;; k" := (bind c (fun x => k))
  (at level 100, c at next level, right associativity) : py_scope.
Notation "c ;; k" := (bind c (fun _ => k))
  (at level 100, right associativity) : py_scope.
Local Open Scope py_scope.

Definition modify (f : world -> world) : M unit := fun w => (Ok tt, f w).

Definition emit (ev : event) : M unit :=
  modify (fun w => set_trace (trace w ++ [ev]) w).

(** A storage access meets the next entry of [faults]: [Some e] makes it fail
    with [e], [None] (or an exhausted list) lets it through. *)
Definition storage_access : M unit := fun w =>
  match faults w with
  | [] => (Ok tt, w)
  | None :: fl => (Ok tt, set_faults fl w)
  | Some e :: fl => (Raise e, set_faults fl w)
  end.

(** ** The storage engine behind [sqlite3] *)

Definition lower_ascii (c : ascii) : ascii :=
  let n := nat_of_ascii c in
  if (65 <=? n)%nat && (n <=? 90)%nat then ascii_of_nat (n + 32) else c.

Fixpoint lower (s : string) : string :=
  match s with
  | EmptyString => EmptyString
  | String c r => String (lower_ascii c) (lower r)
  end.

(** The engine compares table names without regard to ASCII case. *)
Definition same_name (a b : string) : bool := String.eqb (lower a) (lower b).

Fixpoint find_table (name : string) (db : database) : option table :=
  match db with
  | [] => None
  | t :: r => if same_name (tbl_name t) name then Some t else find_table name r
  end.

Definition exec_statement (s : statement) (db : database) : exn + database :=
  match s with
  | CREATE_TABLE if_not_exists name cols =>
      match find_table name db with
      | Some _ =>
          if if_not_exists then inr db
          else inl (OperationalError ("table " +:+ name +:+ " already exists"))
      | None => inr (db ++ [Table name cols []])
      end
  end.

Definition closed_error : exn :=
  ProgrammingError "Cannot operate on a closed database.".

Definition open_conn (h : nat) : M connection := fun w =>
  match conns w !! h with
  | Some c => if conn_open c then (Ok c, w) else (Raise closed_error, w)
  | None => (Raise closed_error, w)
  end.

(** Opening a path read-write with creation: a file that is there is left
    alone, a missing one appears as an empty database. *)
Definition touch (p : string) (f : gmap string database) : gmap string database :=
  match f !! p with
  | Some _ => f
  | None => <[p := []]> f
  end.

(** The tables the engine sees at a path; a missing or empty file shows
    none. *)
Definition tables_at (p : string) (f : gmap string database) : database :=
  default [] (f !! p).

(** [sqlite3.connect(database)]: opens the file, creating it when none is
    there, and hands out a new connection. *)
Definition sqlite3_connect (arg : pyval) : M nat :=
  emit (EvConnect arg);;
  match arg with
  | PyStr path =>
      storage_access;;
      modify (fun w => set_fs (touch path (fs w)) w);;
      fun w => (Ok (length (conns w)),
                set_conns (conns w ++ [Connection path true]) w)
  | _ => raise (TypeError "expected str, bytes or os.PathLike object")
  end.

(** [conn.cursor()] *)
Definition conn_cursor (h : nat) : M cursor :=
  emit (EvCursor h);;
  open_conn h;;
  ret (Cursor h).

(** [cursor.execute(sql)].  A schema statement is not wrapped in a
    transaction by [sqlite3]: it runs in the engine's autocommit mode, so it
    either fails leaving the file as it was or is on disk when the call
    returns. *)
Definition cursor_execute (c : cursor) (s : statement) : M cursor :=
  emit (EvExecute (cur_conn c) s);;
  cn <- open_conn (cur_conn c);;
  storage_access;;
  fun w =>
    match exec_statement s (tables_at (conn_path cn) (fs w)) with
    | inl e => (Raise e, w)
    | inr db => (Ok c, set_fs (<[conn_path cn := db]> (fs w)) w)
    end.

(** [conn.commit()]: there is no transaction left open by a schema
    statement, so beyond reaching the engine this changes nothing. *)
Definition conn_commit (h : nat) : M unit :=
  emit (EvCommit h);;
  open_conn h;;
  storage_access.

Definition close_at (h : nat) (cs : list connection) : list connection :=
  match cs !! h with
  | Some c => <[h := Connection (conn_path c) false]> cs
  | None => cs
  end.

(** [conn.close()] *)
Definition conn_close (h : nat) : M unit :=
  emit (EvClose h);;
  modify (fun w => set_conns (close_at h (conns w)) w).

(** ** Names and printing *)

Definition load_global (name : string) : M pyval := fun w =>
  match globals w !! name with
  | Some v => (Ok v, w)
  | None => (Raise (NameError ("name '" +:+ name +:+ "' is not defined")), w)
  end.

Definition store_global (name : string) (v : pyval) : M unit :=
  modify (fun w => set_globals (<[name := v]> (globals w)) w).

(** [sqlite3.connect]: the attribute lookup on whatever [sqlite3] names. *)
Definition attr_connect (m : pyval) : M unit :=
  match m with
  | PyModule name =>
      if String.eqb name "sqlite3" then ret tt
      else raise (AttributeError "connect")
  | _ => raise (AttributeError "connect")
  end.

Definition print (line : string) : M unit :=
  modify (fun w => set_stdout (stdout w ++ [line]) w).

(** ** db_init.py *)

(** Line 3: [db_path = '/your/path/to/data.db'] *)
Definition db_path : string := "/your/path/to/data.db".

(** Lines 9-15: the statement text
    [CREATE TABLE IF NOT EXISTS subscribers (row_key TEXT PRIMARY KEY,
     sub_id TEXT, act_dt TEXT)] *)
Definition subscribers_columns : list column :=
  [ Column "row_key" TEXT [PRIMARY_KEY];
    Column "sub_id" TEXT [];
    Column "act_dt" TEXT [] ].

Definition create_subscribers : statement :=
  CREATE_TABLE true "subscribers" subscribers_columns.

(** Lines 5-17: [def initialize_db():].  The names [sqlite3] and [db_path]
    are globals of the module, looked up when the body runs. *)
Definition initialize_db : M pyval :=
  m <- load_global "sqlite3";;
  attr_connect m;;
  p <- load_global "db_path";;
  conn <- sqlite3_connect p;;
  cursor <- conn_cursor conn;;
  cursor_execute cursor create_subscribers;;
  conn_commit conn;;
  conn_close conn;;
  ret PyNone.

(** Calling a value with positional arguments.  [initialize_db] declares no
    parameter, so any argument is refused before its body starts. *)
Definition call (f : pyval) (args : list pyval) : M pyval :=
  match f with
  | PyInitializeDb =>
      match args with
      | [] => initialize_db
      | _ => raise (TypeError "initialize_db() takes 0 positional arguments")
      end
  | _ => raise (TypeError "object is not callable")
  end.

Definition success_message : string := "Database initialized successfully!".

(** The module body, lines 1-21, run with [__name__] bound to [name]:
    ["__main__"] when the file is executed, the module's name when it is
    imported. *)
Definition run_module (name : string) : M unit :=
  store_global "sqlite3" (PyModule "sqlite3");;
  store_global "db_path" (PyStr db_path);;
  store_global "initialize_db" PyInitializeDb;;
  if String.eqb name "__main__" then
    f <- load_global "initialize_db";;
    call f [];;
    print success_message
  else ret tt.

(** The status the interpreter exits with. *)
Definition exit_status {A} (r : outcome A) : nat :=
  match r with
  | Ok _ => 0
  | Raise _ => 1
  end.

(** ** Derived notions used by the statements *)

(** The module has been loaded: [sqlite3] names the library and [db_path]
    names the path [p]. *)
Definition module_ready (p : string) (w : world) : Prop :=
  globals w !! "sqlite3" = Some (PyModule "sqlite3") /\
  globals w !! "db_path" = Some (PyStr p).

(** The next fault and the faults left after it. *)
Definition pop (fl : list (option exn)) : option exn * list (option exn) :=
  match fl with
  | [] => (None, [])
  | x :: r => (x, r)
  end.

(** A database once [create_subscribers] has run on it. *)
Definition with_subscribers (db : database) : database :=
  match find_table "subscribers" db with
  | Some _ => db
  | None => db ++ [Table "subscribers" subscribers_columns []]
  end.

Definition created (p : string) (f : gmap string database) : gmap string database :=
  <[p := with_subscribers (tables_at p f)]> (touch p f).

(** Connections handed out since [w] that are still open in [w']. *)
Definition held_since (w w' : world) : list connection :=
  filter (fun c => conn_open c = true) (drop (length (conns w)) (conns w')).

(** Calls made since [w]. *)
Definition calls_since (w w' : world) : list event :=
  drop (length (trace w)) (trace w').


(** The whole run of [initialize_db] in a loaded module, as a function of the
    faults it meets. *)
Definition initialize_db_result (p : string) (w : world) : outcome pyval * world :=
  let h := length (conns w) in
  let c1 := [EvConnect (PyStr p)] in
  let c2 := c1 ++ [EvCursor h; EvExecute h create_subscribers] in
  let c3 := c2 ++ [EvCommit h] in
  let c4 := c3 ++ [EvClose h] in
  let '(f1, fl1) := pop (faults w) in
  match f1 with
  | Some e =>
      (Raise e, World (fs w) (conns w) fl1 (trace w ++ c1) (stdout w) (globals w))
  | None =>
      let '(f2, fl2) := pop fl1 in
      match f2 with
      | Some e =>
          (Raise e, World (touch p (fs w)) (conns w ++ [Connection p true]) fl2
                          (trace w ++ c2) (stdout w) (globals w))
      | None =>
          let '(f3, fl3) := pop fl2 in
          match f3 with
          | Some e =>
              (Raise e, World (created p (fs w)) (conns w ++ [Connection p true]) fl3
                              (trace w ++ c3) (stdout w) (globals w))
          | None =>
              (Ok PyNone, World (created p (fs w)) (conns w ++ [Connection p false]) fl3
                                (trace w ++ c4) (stdout w) (globals w))
          end
      end
  end.

(** ** Sample worlds *)

Definition loaded_globals (p : string) : gmap string pyval :=
  <["initialize_db" := PyInitializeDb]>
    (<["db_path" := PyStr p]> (<["sqlite3" := PyModule "sqlite3"]> ∅)).

(** Nothing on disk, nothing printed, the module loaded, no fault ahead. *)
Definition fresh_world : world :=
  World ∅ [] [] [] [] (loaded_globals db_path).

Definition disk_full : exn := OperationalError "database or disk is full".

(** The statement runs into a full disk right after the connection was
    handed out. *)
Definition execute_fails_world : world :=
  set_faults [None; Some disk_full] fresh_world.

(** The connection cannot be opened. *)
Definition connect_fails_world : world :=
  set_faults [Some disk_full; None] fresh_world.




(** A file made by an earlier run, with two rows put there since. *)
Definition populated_table : table :=
  Table "subscribers" subscribers_columns
        [[SqlText "k1"; SqlText "s1"; SqlText "2024-01-01"];
         [SqlText "k2"; SqlText "s2"; SqlNull]].

Definition populated_world : world :=
  set_fs {[ db_path := [populated_table] ]} fresh_world.

Definition is_commit (ev : event) : bool :=
  match ev with
  | EvCommit _ => true
  | _ => false
  end.

(** The world once the three module-level bindings (lines 1, 3 and 5) are
    made. *)
Definition after_import (w : world) : world :=
  set_globals
    (<["initialize_db" := PyInitializeDb]>
       (<["db_path" := PyStr db_path]>
          (<["sqlite3" := PyModule "sqlite3"]> (globals w)))) w.

(** Before the interpreter has run anything. *)
Definition blank_world : world := World ∅ [] [] [] [] ∅.




(** Another file of the application sits next to the database, which has a
    table of its own. *)
Definition shared_disk_world : world :=
  set_fs {[ db_path := [Table "audit" [Column "at" TEXT []] [[SqlText "t0"]]];
            "/your/path/to/other.db" := [populated_table] ]} fresh_world.

(** * Properties *)

(** An event that differs in its constructor from every member of an explicit
    list is not in it. *)
Ltac not_listed :=
  let H := fresh "H" in
  intros H; simpl in H;
  repeat (apply elem_of_cons in H as [H|H]; [discriminate H|]);
  by apply elem_of_nil in H.

Section Engine.

#[local] Arguments exec_statement : simpl never.
#[local] Arguments tables_at : simpl never.
#[local] Arguments touch : simpl never.

Lemma lookup_new_conn (cs : list connection) (c : connection) :
  (cs ++ [c]) !! length cs = Some c.
Proof. by apply list_lookup_middle. Qed.

Lemma close_new_conn (cs : list connection) (p : string) :
  close_at (length cs) (cs ++ [Connection p true]) = cs ++ [Connection p false].
Proof.
  unfold close_at. rewrite lookup_new_conn. simpl.
  induction cs as [|c cs IH]; simpl; [done | by rewrite IH].
Qed.

Lemma tables_at_touch (p : string) (f : gmap string database) :
  tables_at p (touch p f) = tables_at p f.
Proof.
  unfold tables_at, touch. destruct (f !! p) eqn:E.
  - by rewrite E.
  - by rewrite lookup_insert_eq.
Qed.

Lemma exec_create_subscribers (db : database) :
  exec_statement create_subscribers db = inr (with_subscribers db).
Proof.
  unfold exec_statement, create_subscribers, with_subscribers.
  by destruct (find_table "subscribers" db).
Qed.

(** One step of each engine call, on an explicit world. *)

Lemma connect_step p f cs fl t o g :
  sqlite3_connect (PyStr p) (World f cs fl t o g) =
  match pop fl with
  | (Some e, fl1) => (Raise e, World f cs fl1 (t ++ [EvConnect (PyStr p)]) o g)
  | (None, fl1) =>
      (Ok (length cs),
       World (touch p f) (cs ++ [Connection p true]) fl1
             (t ++ [EvConnect (PyStr p)]) o g)
  end.
Proof. by destruct fl as [|[e|] fl]. Qed.

Lemma cursor_step h p f cs fl t o g :
  cs !! h = Some (Connection p true) ->
  conn_cursor h (World f cs fl t o g) =
  (Ok (Cursor h), World f cs fl (t ++ [EvCursor h]) o g).
Proof.
  intros H. unfold conn_cursor, bind, open_conn, emit, modify. simpl.
  by rewrite H.
Qed.

Lemma execute_step h p f cs fl t o g :
  cs !! h = Some (Connection p true) ->
  cursor_execute (Cursor h) create_subscribers (World f cs fl t o g) =
  match pop fl with
  | (Some e, fl1) =>
      (Raise e, World f cs fl1 (t ++ [EvExecute h create_subscribers]) o g)
  | (None, fl1) =>
      (Ok (Cursor h),
       World (<[p := with_subscribers (tables_at p f)]> f) cs fl1
             (t ++ [EvExecute h create_subscribers]) o g)
  end.
Proof.
  intros H. unfold cursor_execute, bind, open_conn, emit, modify. simpl.
  rewrite H. simpl.
  destruct fl as [|[e|] fl]; simpl; try done.
  all: by rewrite exec_create_subscribers.
Qed.

Lemma commit_step h p f cs fl t o g :
  cs !! h = Some (Connection p true) ->
  conn_commit h (World f cs fl t o g) =
  match pop fl with
  | (Some e, fl1) => (Raise e, World f cs fl1 (t ++ [EvCommit h]) o g)
  | (None, fl1) => (Ok tt, World f cs fl1 (t ++ [EvCommit h]) o g)
  end.
Proof.
  intros H. unfold conn_commit, bind, open_conn, emit, modify. simpl.
  rewrite H. simpl.
  by destruct fl as [|[e|] fl].
Qed.

Lemma close_step h f cs fl t o g :
  conn_close h (World f cs fl t o g) =
  (Ok tt, World f (close_at h cs) fl (t ++ [EvClose h]) o g).
Proof. done. Qed.

Lemma load_step name v f cs fl t o g :
  g !! name = Some v ->
  load_global name (World f cs fl t o g) = (Ok v, World f cs fl t o g).
Proof. intros H. unfold load_global. simpl. by rewrite H. Qed.

(** The embedding of [initialize_db] run in a loaded module computes
    [initialize_db_result]. *)
Lemma initialize_db_run (p : string) (w : world) :
  module_ready p w -> initialize_db w = initialize_db_result p w.
Proof.
  destruct w as [f cs fl t o g]. intros [Hs Hp]. simpl in Hs, Hp.
  unfold initialize_db, initialize_db_result, created, bind.
  cbn [globals conns fs faults trace stdout].
  rewrite (load_step _ _ _ _ _ _ _ _ Hs).
  cbn [attr_connect String.eqb Ascii.eqb Bool.eqb ret].
  rewrite (load_step _ _ _ _ _ _ _ _ Hp), connect_step.
  destruct (pop fl) as [[e1|] fl1]; [done|].
  rewrite (cursor_step _ p) by apply lookup_new_conn.
  rewrite (execute_step _ p) by apply lookup_new_conn.
  rewrite tables_at_touch.
  destruct (pop fl1) as [[e2|] fl2]; [by rewrite <- !app_assoc|].
  rewrite (commit_step _ p) by apply lookup_new_conn.
  destruct (pop fl2) as [[e3|] fl3]; [by rewrite <- !app_assoc|].
  rewrite close_step, close_new_conn. unfold ret.
  by rewrite <- !app_assoc.
Qed.

End Engine.

(** ** Release of the connection *)

Section Release.

Lemma held_since_new (w : world) (c : connection) (w' : world) :
  conns w' = conns w ++ [c] ->
  held_since w w' = if conn_open c then [c] else [].
Proof.
  intros H. unfold held_since. rewrite H, drop_app_length.
  by destruct c as [q []].
Qed.

Lemma calls_since_app (w : world) (l : list event) (w' : world) :
  trace w' = trace w ++ l -> calls_since w w' = l.
Proof. intros H. unfold calls_since. by rewrite H, drop_app_length. Qed.

(** C1, as stated, fails: when [cursor.execute] raises, [initialize_db]
    hands the exception on with the connection it opened still open, and
    [close] was never called. *)
Lemma initialize_db_leaks_on_execute_error :
  exists w',
    initialize_db execute_fails_world = (Raise disk_full, w') /\
    held_since execute_fails_world w' = [Connection db_path true] /\
    held_since execute_fails_world w' <> [] /\
    EvClose 0 ∉ calls_since execute_fails_world w'.
Proof.
  eexists. split; [vm_compute; reflexivity|].
  split; [by vm_compute|]. split; [by vm_compute|].
  vm_compute. not_listed.
Qed.

(** C1, amended: a run of [initialize_db] that completes without error has
    closed the connection it opened before it returns, and a failure of
    [connect] itself leaves nothing to release; when an exception is raised
    after the connection was handed out, the routine does not close it: the
    exception reaches the caller with that connection still open. *)
Theorem initialize_db_release (p : string) (w : world) (r : outcome pyval) (w' : world) :
  module_ready p w ->
  initialize_db w = (r, w') ->
  let h := length (conns w) in
  match r with
  | Ok _ =>
      conns w' = conns w ++ [Connection p false] /\
      held_since w w' = [] /\
      last (calls_since w w') = Some (EvClose h)
  | Raise _ =>
      (conns w' = conns w /\ held_since w w' = []) \/
      (conns w' = conns w ++ [Connection p true] /\
       held_since w w' = [Connection p true] /\
       EvClose h ∉ calls_since w w')
  end.
Proof.
  intros Hr. rewrite (initialize_db_run p w Hr). unfold initialize_db_result.
  destruct (pop (faults w)) as [[e1|] fl1].
  { intros [= <- <-]. left. split; [done|].
    unfold held_since. simpl. by rewrite drop_all. }
  destruct (pop fl1) as [[e2|] fl2].
  { intros [= <- <-]. right. split; [done|]. split.
    - by rewrite (held_since_new w (Connection p true)).
    - erewrite calls_since_app by (simpl; reflexivity). not_listed. }
  destruct (pop fl2) as [[e3|] fl3].
  { intros [= <- <-]. right. split; [done|]. split.
    - by rewrite (held_since_new w (Connection p true)).
    - erewrite calls_since_app by (simpl; reflexivity). not_listed. }
  intros [= <- <-]. split; [done|]. split.
  - by rewrite (held_since_new w (Connection p false)).
  - by erewrite calls_since_app by (simpl; reflexivity).
Qed.

Lemma fresh_world_ready : module_ready db_path fresh_world.
Proof. by vm_compute. Qed.

Lemma initialize_db_release_witness :
  exists w',
    initialize_db fresh_world = (Ok PyNone, w') /\
    conns w' = conns fresh_world ++ [Connection db_path false] /\
    held_since fresh_world w' = [] /\
    last (calls_since fresh_world w') = Some (EvClose 0).
Proof.
  eexists. split; [vm_compute; reflexivity|].
  exact (initialize_db_release db_path fresh_world (Ok PyNone) _
           fresh_world_ready eq_refl).
Defined.

End Release.

(** ** Propagation of storage errors *)

Section Propagation.

(** C4: whatever exception the engine raises while opening the connection,
    executing the statement or committing comes out of [initialize_db] as
    that same exception.  The call that failed is the last call made (no
    second attempt, no [close]), the faults behind it are left unmet, and
    nothing is printed. *)
Theorem initialize_db_propagates (p : string) (w : world) (e : exn)
    (fl : list (option exn)) :
  module_ready p w ->
  let h := length (conns w) in
  (faults w = Some e :: fl ->
   exists w', initialize_db w = (Raise e, w') /\
     calls_since w w' = [EvConnect (PyStr p)] /\
     faults w' = fl /\ stdout w' = stdout w) /\
  (faults w = None :: Some e :: fl ->
   exists w', initialize_db w = (Raise e, w') /\
     calls_since w w' =
       [EvConnect (PyStr p); EvCursor h; EvExecute h create_subscribers] /\
     faults w' = fl /\ stdout w' = stdout w) /\
  (faults w = None :: None :: Some e :: fl ->
   exists w', initialize_db w = (Raise e, w') /\
     calls_since w w' =
       [EvConnect (PyStr p); EvCursor h; EvExecute h create_subscribers;
        EvCommit h] /\
     faults w' = fl /\ stdout w' = stdout w).
Proof.
  intros Hr h. rewrite (initialize_db_run p w Hr). unfold initialize_db_result.
  repeat split; intros ->; simpl; eexists; (split; [reflexivity|]);
    (split; [by apply calls_since_app|done]).
Qed.

Lemma initialize_db_propagates_witness :
  exists w',
    initialize_db connect_fails_world = (Raise disk_full, w') /\
    calls_since connect_fails_world w' = [EvConnect (PyStr db_path)] /\
    faults w' = [None] /\ stdout w' = stdout connect_fails_world.
Proof.
  apply (initialize_db_propagates db_path connect_fails_world disk_full [None]).
  - by vm_compute.
  - reflexivity.
Defined.

End Propagation.

(** ** The schema on disk *)

Section Schema.





Lemma with_subscribers_present (db : database) (t : table) :
  find_table "subscribers" db = Some t -> with_subscribers db = db.
Proof. intros H. unfold with_subscribers. by rewrite H. Qed.


Lemma tables_at_created (p : string) (f : gmap string database) :
  tables_at p (created p f) = with_subscribers (tables_at p f).
Proof. unfold tables_at at 1, created. by rewrite lookup_insert_eq. Qed.

Lemma touch_present (p : string) (f : gmap string database) :
  is_Some (f !! p) -> touch p f = f.
Proof. intros [db H]. unfold touch. by rewrite H. Qed.


Lemma present_is_file (p : string) (f : gmap string database) (t : table) :
  find_table "subscribers" (tables_at p f) = Some t ->
  exists db, f !! p = Some db /\ tables_at p f = db.
Proof.
  unfold tables_at. destruct (f !! p) as [db|]; simpl; [by eexists | done].
Qed.

Lemma created_present (p : string) (f : gmap string database) (t : table) :
  find_table "subscribers" (tables_at p f) = Some t -> created p f = f.
Proof.
  intros H. destruct (present_is_file p f t H) as (db & Hf & Hdb).
  unfold created. rewrite (with_subscribers_present _ t H), Hdb.
  rewrite touch_present by (by eexists). by apply insert_id.
Qed.





Lemma created_other (p q : string) (f : gmap string database) :
  q <> p -> created p f !! q = f !! q.
Proof.
  intros Hne. unfold created, touch. rewrite lookup_insert_ne by done.
  destruct (f !! p); [done | by rewrite lookup_insert_ne].
Qed.

(** What a successful run leaves behind. *)
Lemma initialize_db_ok_inv (p : string) (w : world) (v : pyval) (w' : world) :
  module_ready p w -> initialize_db w = (Ok v, w') ->
  v = PyNone /\ fs w' = created p (fs w) /\
  conns w' = conns w ++ [Connection p false] /\
  stdout w' = stdout w /\ globals w' = globals w.
Proof.
  intros Hr. rewrite (initialize_db_run p w Hr). unfold initialize_db_result.
  destruct (pop (faults w)) as [[e1|] fl1]; [done|].
  destruct (pop fl1) as [[e2|] fl2]; [done|].
  destruct (pop fl2) as [[e3|] fl3]; [done|].
  by intros [= <- <-].
Qed.

(** Whatever the outcome, the files are as before, or [p] was opened, or the
    statement ran; nothing is printed and no global is rebound. *)
Lemma initialize_db_frame (p : string) (w : world) (r : outcome pyval) (w' : world) :
  module_ready p w -> initialize_db w = (r, w') ->
  (fs w' = fs w \/ fs w' = touch p (fs w) \/ fs w' = created p (fs w)) /\
  stdout w' = stdout w /\ globals w' = globals w.
Proof.
  intros Hr. rewrite (initialize_db_run p w Hr). unfold initialize_db_result.
  destruct (pop (faults w)) as [[e1|] fl1]; [intros [= <- <-]; simpl; tauto|].
  destruct (pop fl1) as [[e2|] fl2]; [intros [= <- <-]; simpl; tauto|].
  destruct (pop fl2) as [[e3|] fl3]; intros [= <- <-]; simpl; tauto.
Qed.






(** C5: when the location already holds the [subscribers] table, a run of
    [initialize_db], whatever its outcome, leaves the files as they were; in
    particular the table has the same rows, as many as before. *)
Theorem initialize_db_keeps_rows (p : string) (w : world) (t : table)
    (r : outcome pyval) (w' : world) :
  module_ready p w ->
  find_table "subscribers" (tables_at p (fs w)) = Some t ->
  initialize_db w = (r, w') ->
  fs w' = fs w /\
  exists t',
    find_table "subscribers" (tables_at p (fs w')) = Some t' /\
    tbl_rows t' = tbl_rows t /\
    length (tbl_rows t') = length (tbl_rows t).
Proof.
  intros Hr Ht Hrun.
  destruct (initialize_db_frame p w r w' Hr Hrun) as (Hfs & _).
  assert (fs w' = fs w) as ->.
  { destruct (present_is_file p _ t Ht) as (db & Hf & _).
    destruct Hfs as [->| [->| ->]]; [done| |].
    - apply touch_present. by eexists.
    - by apply (created_present p _ t). }
  split; [done|]. by exists t.
Qed.

Lemma populated_world_ready : module_ready db_path populated_world.
Proof. by vm_compute. Qed.

Lemma initialize_db_keeps_rows_witness :
  exists w',
    initialize_db populated_world = (Ok PyNone, w') /\
    fs w' = fs populated_world /\
    exists t',
      find_table "subscribers" (tables_at db_path (fs w')) = Some t' /\
      tbl_rows t' = tbl_rows populated_table /\
      length (tbl_rows t') = length (tbl_rows populated_table).
Proof.
  eexists. split; [vm_compute; reflexivity|].
  exact (initialize_db_keeps_rows db_path populated_world populated_table
           (Ok PyNone) _ populated_world_ready eq_refl eq_refl).
Defined.

(** C7: when a run against a location without the table ends in an error
    before [commit] was reached, the tables visible at the location are the
    ones visible before the run, and [subscribers] is not among them. *)
Theorem initialize_db_failure_atomic (p : string) (w : world) (e : exn) (w' : world) :
  module_ready p w ->
  find_table "subscribers" (tables_at p (fs w)) = None ->
  initialize_db w = (Raise e, w') ->
  existsb is_commit (calls_since w w') = false ->
  tables_at p (fs w') = tables_at p (fs w) /\
  find_table "subscribers" (tables_at p (fs w')) = None.
Proof.
  intros Hr Hnone. rewrite (initialize_db_run p w Hr). unfold initialize_db_result.
  destruct (pop (faults w)) as [[e1|] fl1]; [by intros [= <- <-]|].
  destruct (pop fl1) as [[e2|] fl2].
  { intros [= <- <-] _. simpl. by rewrite tables_at_touch. }
  destruct (pop fl2) as [[e3|] fl3]; [|done].
  intros [= <- <-]. erewrite calls_since_app by (simpl; reflexivity). done.
Qed.

Lemma execute_fails_world_ready : module_ready db_path execute_fails_world.
Proof. by vm_compute. Qed.

Lemma initialize_db_failure_atomic_witness :
  exists w',
    initialize_db execute_fails_world = (Raise disk_full, w') /\
    tables_at db_path (fs w') = tables_at db_path (fs execute_fails_world) /\
    find_table "subscribers" (tables_at db_path (fs w')) = None.
Proof.
  eexists. split; [vm_compute; reflexivity|].
  exact (initialize_db_failure_atomic db_path execute_fails_world disk_full _
           execute_fails_world_ready eq_refl eq_refl eq_refl).
Defined.



End Schema.

(** ** The module body *)

Section Module.

Lemma after_import_ready (w : world) : module_ready db_path (after_import w).
Proof.
  unfold module_ready, after_import, set_globals. cbn [globals]. split.
  - rewrite !lookup_insert_ne by done. apply lookup_insert_eq.
  - rewrite lookup_insert_ne by done. apply lookup_insert_eq.
Qed.

Lemma run_module_import (name : string) (w : world) :
  name <> "__main__" -> run_module name w = (Ok tt, after_import w).
Proof.
  intros Hne. unfold run_module, bind, store_global, modify.
  destruct (String.eqb name "__main__") eqn:E; [|done].
  by apply String.eqb_eq in E.
Qed.

Lemma run_module_main (w : world) :
  run_module "__main__" w =
  match initialize_db (after_import w) with
  | (Ok _, w1) => (Ok tt, set_stdout (stdout w1 ++ [success_message]) w1)
  | (Raise e, w1) => (Raise e, w1)
  end.
Proof.
  destruct w as [f cs fl t o g].
  unfold run_module, bind, store_global, modify, after_import, set_globals.
  cbn [String.eqb Ascii.eqb Bool.eqb fs conns faults trace stdout globals].
  rewrite (load_step "initialize_db" PyInitializeDb) by apply lookup_insert_eq.
  cbn [call].
  by destruct (initialize_db _) as [[v|e] w1].
Qed.

Lemma snoc_neq {A} (l : list A) (x : A) : l ++ [x] <> l.
Proof.
  intros H. apply (f_equal length) in H. rewrite length_app in H.
  simpl in H. lia.
Qed.

(** Every run in a loaded module starts by calling [connect] on the path. *)
Lemma initialize_db_calls_connect (p : string) (w : world) (r : outcome pyval)
    (w' : world) :
  module_ready p w -> initialize_db w = (r, w') ->
  head (calls_since w w') = Some (EvConnect (PyStr p)).
Proof.
  intros Hr. rewrite (initialize_db_run p w Hr). unfold initialize_db_result.
  destruct (pop (faults w)) as [[e1|] fl1];
    [|destruct (pop fl1) as [[e2|] fl2];
      [|destruct (pop fl2) as [[e3|] fl3]]];
    intros [= <- <-]; by erewrite calls_since_app by (simpl; reflexivity).
Qed.

(** C6: run as a script, the program prints the confirmation line exactly
    when [initialize_db] returned without error, and then exits with status
    0; when [initialize_db] raised, the exception ends the run with a
    non-zero status and nothing was printed. *)
Theorem main_prints_iff_success (w : world) (ri : outcome pyval) (wi : world)
    (r : outcome unit) (w' : world) :
  initialize_db (after_import w) = (ri, wi) ->
  run_module "__main__" w = (r, w') ->
  match ri with
  | Ok _ =>
      r = Ok tt /\ stdout w' = stdout w ++ ["Database initialized successfully!"] /\
      exit_status r = 0
  | Raise e =>
      r = Raise e /\ stdout w' = stdout w /\ exit_status r = 1
  end /\
  ((exists v, ri = Ok v) <->
   stdout w' = stdout w ++ ["Database initialized successfully!"]).
Proof.
  intros Hi. rewrite run_module_main, Hi.
  destruct (initialize_db_frame _ _ _ _ (after_import_ready w) Hi) as (_ & Ho & _).
  simpl in Ho.
  destruct ri as [v|e]; intros [= <- <-]; simpl; rewrite Ho.
  - split; [done|]. split; [done | by eexists].
  - split; [done|]. split; [intros [v Hv]; discriminate Hv|].
    intros H. symmetry in H. by apply snoc_neq in H.
Qed.

Lemma main_prints_iff_success_witness :
  exists wi w',
    initialize_db (after_import blank_world) = (Ok PyNone, wi) /\
    run_module "__main__" blank_world = (Ok tt, w') /\
    stdout w' = ["Database initialized successfully!"].
Proof.
  eexists. eexists. split; [vm_compute; reflexivity|].
  split; [vm_compute; reflexivity|].
  exact (proj1 (proj2 (proj1
    (main_prints_iff_success blank_world (Ok PyNone) _ (Ok tt) _ eq_refl eq_refl)))).
Defined.

(** C9, as stated, fails: [initialize_db] declares no parameter, so a call
    that passes a path is refused before anything is opened, and no file
    appears at that path. *)
Lemma initialize_db_refuses_path_argument :
  exists msg,
    call PyInitializeDb [PyStr "/tmp/test.db"] fresh_world =
      (Raise (TypeError msg), fresh_world) /\
    fs fresh_world !! "/tmp/test.db" = None.
Proof. eexists. split; reflexivity. Qed.

(** C9, amended: [initialize_db] takes no argument.  Called with none, it
    works on the path the module-level name [db_path] is bound to, which
    the module binds to the constant ['/your/path/to/data.db'], and returns
    [None] on success touching no other path; called with any argument it
    raises [TypeError] and does nothing. *)
Theorem initialize_db_signature (p : string) (w : world) :
  module_ready p w ->
  call PyInitializeDb [] w = initialize_db w /\
  (forall a args, exists msg,
     call PyInitializeDb (a :: args) w = (Raise (TypeError msg), w)) /\
  (forall v w', call PyInitializeDb [] w = (Ok v, w') ->
     v = PyNone /\ is_Some (fs w' !! p) /\
     forall q, q <> p -> fs w' !! q = fs w !! q) /\
  (forall name w0, exists r w1,
     run_module name w0 = (r, w1) /\
     globals w1 !! "db_path" = Some (PyStr "/your/path/to/data.db")).
Proof.
  intros Hr. split; [done|]. split; [by eexists|]. split.
  - simpl. intros v w' Hrun.
    destruct (initialize_db_ok_inv p w v w' Hr Hrun) as (-> & -> & _).
    split; [done|]. split.
    + unfold created. rewrite lookup_insert_eq. by eexists.
    + intros q Hq. by apply created_other.
  - intros name w0.
    assert (globals (after_import w0) !! "db_path" = Some (PyStr db_path)) as Hg
      by apply after_import_ready.
    destruct (decide (name = "__main__")) as [->|Hne].
    + rewrite run_module_main.
      destruct (initialize_db (after_import w0)) as [[v|e] w1] eqn:Hi;
        destruct (initialize_db_frame _ _ _ _ (after_import_ready w0) Hi)
          as (_ & _ & Hgl);
        eexists; eexists; (split; [reflexivity|]); simpl; by rewrite Hgl.
    + rewrite (run_module_import name w0 Hne). by eexists; eexists.
Qed.

Lemma initialize_db_signature_witness :
  call PyInitializeDb [] fresh_world = initialize_db fresh_world /\
  exists msg, call PyInitializeDb [PyStr "/tmp/test.db"] fresh_world =
                (Raise (TypeError msg), fresh_world).
Proof.
  pose proof (initialize_db_signature db_path fresh_world fresh_world_ready)
    as (H1 & H2 & _).
  split; [exact H1 | exact (H2 (PyStr "/tmp/test.db") [])].
Defined.

(** C10: run under any name but ["__main__"], the module body only binds
    its three names: no call reaches [sqlite3], no file or connection
    changes and nothing is printed.  Run as ["__main__"] it does call
    [connect] on the path. *)
Theorem import_has_no_effect (name : string) (w : world) :
  (name <> "__main__" ->
   exists w',
     run_module name w = (Ok tt, w') /\
     calls_since w w' = [] /\ trace w' = trace w /\
     fs w' = fs w /\ conns w' = conns w /\ faults w' = faults w /\
     stdout w' = stdout w /\
     globals w' =
       <["initialize_db" := PyInitializeDb]>
         (<["db_path" := PyStr "/your/path/to/data.db"]>
            (<["sqlite3" := PyModule "sqlite3"]> (globals w)))) /\
  (name = "__main__" ->
   exists r w',
     run_module name w = (r, w') /\
     head (calls_since w w') = Some (EvConnect (PyStr "/your/path/to/data.db"))).
Proof.
  split.
  - intros Hne. rewrite (run_module_import name w Hne). eexists.
    split; [reflexivity|]. simpl. unfold calls_since. simpl.
    by rewrite drop_all.
  - intros ->. rewrite run_module_main.
    destruct (initialize_db (after_import w)) as [[v|e] w1] eqn:Hi;
      pose proof (initialize_db_calls_connect _ _ _ _ (after_import_ready w) Hi)
        as Hc;
      eexists; eexists; (split; [reflexivity|]); exact Hc.
Qed.

Lemma import_has_no_effect_witness :
  exists w',
    run_module "db_init" blank_world = (Ok tt, w') /\
    calls_since blank_world w' = [] /\
    fs w' = fs blank_world /\
    stdout w' = stdout blank_world.
Proof.
  destruct (proj1 (import_has_no_effect "db_init" blank_world) ltac:(discriminate))
    as (w' & H1 & H2 & _ & H3 & _ & _ & H4 & _).
  exists w'. by repeat split.
Defined.

End Module.

(** ** Further properties of the initializer *)

Section Beyond.





(** Case analysis on the fault a run in a loaded module meets. *)
Ltac run_cases Hr :=
  rewrite (initialize_db_run _ _ Hr); unfold initialize_db_result;
  destruct (pop (faults _)) as [[?|] ?];
    [|destruct (pop _) as [[?|] ?];
      [|destruct (pop _) as [[?|] ?]]];
  intros [= <- <-]; cbn [fs conns faults trace stdout globals].







(** X3: a run never drops or alters a table of the file it works on: the
    tables at the path afterwards are those that were there, in the same
    order and with their rows, followed at most by one new, empty
    [subscribers] table, and that only when none went by the name. *)
Theorem initialize_db_tables_grow (p : string) (w : world) (r : outcome pyval)
    (w' : world) :
  module_ready p w ->
  initialize_db w = (r, w') ->
  tables_at p (fs w') = tables_at p (fs w) \/
  (find_table "subscribers" (tables_at p (fs w)) = None /\
   tables_at p (fs w') =
     tables_at p (fs w) ++
     [Table "subscribers"
            [Column "row_key" TEXT [PRIMARY_KEY];
             Column "sub_id" TEXT [];
             Column "act_dt" TEXT []] []]).
Proof.
  intros Hr. run_cases Hr.
  - by left.
  - left. apply tables_at_touch.
  - rewrite tables_at_created. unfold with_subscribers.
    destruct (find_table "subscribers" (tables_at p (fs w))); [by left | by right].
  - rewrite tables_at_created. unfold with_subscribers.
    destruct (find_table "subscribers" (tables_at p (fs w))); [by left | by right].
Qed.

Lemma shared_disk_world_ready : module_ready db_path shared_disk_world.
Proof. by vm_compute. Qed.

Lemma initialize_db_tables_grow_witness :
  exists w',
    initialize_db shared_disk_world = (Ok PyNone, w') /\
    tables_at db_path (fs w') =
      [Table "audit" [Column "at" TEXT []] [[SqlText "t0"]];
       Table "subscribers" subscribers_columns []].
Proof.
  eexists. split; [vm_compute; reflexivity|].
  destruct (initialize_db_tables_grow db_path shared_disk_world (Ok PyNone) _
              shared_disk_world_ready eq_refl) as [H|[_ H]].
  - discriminate H.
  - exact H.
Defined.














End Beyond.
